(** * Model run lifecycle manager (tno.aimms_adapter)

    A shallow embedding of [tno/aimms_adapter/data_types.py] and of the
    [Model] base class of [tno/aimms_adapter/model/model.py], followed by
    the properties of the lifecycle operations.

    Conventions of the embedding
    - the registry [model_run_dict] is a Python [dict]: an insertion-ordered
      map, kept here as an association list in insertion order;
    - an operation is a function from the state before the call to the state
      after it and the value returned, or the exception raised;
    - [uuid4()] is a source of randomness outside the program: the identifier
      it draws is an argument of [request];
    - the abstract method [process_results] is the one member of the class
      [ModelImpl]. *)

From Stdlib Require Import List String Ascii Bool ZArith Lia.
Import ListNotations.
Open Scope string_scope.

(** ** Python values that cross the interface *)

Inductive pyval : Type :=
| PNone
| PBool (b : bool)
| PInt (z : Z)
| PStr (s : string).

(** Truth value of an object, as tested by [if res:]. *)
Definition truthy (v : pyval) : bool :=
  match v with
  | PNone => false
  | PBool b => b
  | PInt z => negb (Z.eqb z 0)
  | PStr s => negb (String.eqb s "")
  end.

Inductive exn : Type :=
| AttributeError
| TypeError
| IOError (msg : string)
| OSError
| S3Error.

Inductive outcome (A : Type) : Type :=
| Return (a : A)
| Raise (e : exn).
Arguments Return {A} a.
Arguments Raise {A} e.

(** ** Insertion-ordered dictionaries with string keys *)

Section Dict.
Context {V : Type}.

Definition dict : Type := list (string * V).

(** [d[k]], [None] standing for [KeyError]. *)
Fixpoint dict_get (k : string) (d : dict) : option V :=
  match d with
  | [] => None
  | (k', v) :: rest => if String.eqb k k' then Some v else dict_get k rest
  end.

(** [k in d] *)
Definition dict_contains (k : string) (d : dict) : bool :=
  match dict_get k d with Some _ => true | None => false end.

(** [d[k] = v]: an existing key keeps its position, a new key goes last. *)
Fixpoint dict_set (k : string) (v : V) (d : dict) : dict :=
  match d with
  | [] => [(k, v)]
  | (k', v') :: rest =>
      if String.eqb k k' then (k, v) :: rest else (k', v') :: dict_set k v rest
  end.

(** [del d[k]] *)
Fixpoint dict_del (k : string) (d : dict) : dict :=
  match d with
  | [] => []
  | (k', v') :: rest =>
      if String.eqb k k' then dict_del k rest else (k', v') :: dict_del k rest
  end.

Definition dict_keys (d : dict) : list string := map fst d.
End Dict.
Arguments dict V : clear implicits.

(** ** data_types.py *)

Inductive ModelState : Type :=
| UNKNOWN | PENDING | ACCEPTED | QUEUED | READY | RUNNING | SUCCEEDED | ERROR.

Definition ModelState_eqb (a b : ModelState) : bool :=
  match a, b with
  | UNKNOWN, UNKNOWN | PENDING, PENDING | ACCEPTED, ACCEPTED | QUEUED, QUEUED
  | READY, READY | RUNNING, RUNNING | SUCCEEDED, SUCCEEDED | ERROR, ERROR => true
  | _, _ => false
  end.

Record OperaAdapterConfig : Type := {
  input_esdl_file_path_1 : option string;
  input_esdl_file_path_2 : option string;
  output_esdl_file_path : option string;
  base_path : option string
}.

Module ModelRun.
Record t : Type := mk {
  state : ModelState;
  config : option OperaAdapterConfig;
  result : option (dict pyval)
}.

(** Attribute assignments [m.state = s] and [m.result = d]. *)
Definition set_state (s : ModelState) (m : t) : t :=
  mk s (config m) (result m).
Definition set_config (c : option OperaAdapterConfig) (m : t) : t :=
  mk (state m) c (result m).
Definition set_result (d : option (dict pyval)) (m : t) : t :=
  mk (state m) (config m) d.
End ModelRun.

Module ModelRunInfo.
Record t : Type := mk {
  model_run_id : string;
  state : ModelState;
  result : option (dict pyval);
  reason : option string
}.
End ModelRunInfo.

(** ** The collaborators of [Model] *)

(** The object store behind the Minio client: buckets of named objects.
    Only the three calls of [store_result] are modelled. *)
Definition Minio : Type := dict (dict string).

Definition bucket_exists (bucket : string) (c : Minio) : bool :=
  dict_contains bucket c.

Definition make_bucket (bucket : string) (c : Minio) : Minio :=
  dict_set bucket [] c.

Definition put_object (bucket name content : string) (nbytes : nat) (c : Minio)
  : option Minio :=
  match dict_get bucket c with
  | Some objects => Some (dict_set bucket (dict_set name content objects) c)
  | None => None
  end.

(** The local file system: the files written so far, and the names that
    [open(filename, 'w')] refuses. *)
Record Disk : Type := {
  files : dict string;
  refused : list string
}.

Definition can_open (filename : string) (d : Disk) : bool :=
  negb (existsb (String.eqb filename) (refused d)).

Definition write_file (filename content : string) (d : Disk) : Disk :=
  {| files := dict_set filename content (files d); refused := refused d |}.

(** [process_results] is abstract in [Model]; a subclass supplies it. *)
Class ModelImpl : Type := {
  process_results : pyval -> pyval
}.

(** [s.split("/")] *)
Fixpoint split_slash (s : string) : list string :=
  match s with
  | EmptyString => [EmptyString]
  | String c s' =>
      if Ascii.eqb c "/" then EmptyString :: split_slash s'
      else match split_slash s' with
           | [] => [String c EmptyString]
           | h :: t => String c h :: t
           end
  end.

(** ** model.py *)

Record Model : Type := {
  model_run_dict : dict ModelRun.t;
  minio_client : option Minio
}.

Record World : Type := {
  self : Model;
  disk : Disk
}.

Definition with_dict (d : dict ModelRun.t) (m : Model) : Model :=
  {| model_run_dict := d; minio_client := minio_client m |}.

(** [Model.__init__]: the registry starts empty; [minio] is the client built
    from the environment settings, [None] when no endpoint is configured. *)
Definition init (minio : option Minio) : Model :=
  {| model_run_dict := []; minio_client := minio |}.

Definition unknown_reason (operation : string) : string :=
  "Error in Model." ++ operation ++ "(): model_run_id unknown".

Definition not_ready_reason : string := "Error: Model is not in READY state".

Definition request (uuid : string) (m : Model) : Model * ModelRunInfo.t :=
  let model_run_id := uuid in
  let d := dict_set model_run_id (ModelRun.mk ACCEPTED None None) (model_run_dict m) in
  (with_dict d m,
   ModelRunInfo.mk model_run_id
     (match dict_get model_run_id d with
      | Some r => ModelRun.state r
      | None => UNKNOWN
      end)
     None None).

Definition initialize (model_run_id : string) (config : option OperaAdapterConfig)
    (m : Model) : Model * ModelRunInfo.t :=
  match dict_get model_run_id (model_run_dict m) with
  | Some r =>
      let r1 := ModelRun.set_config config r in
      let r2 := ModelRun.set_state READY r1 in
      (with_dict (dict_set model_run_id r2 (model_run_dict m)) m,
       ModelRunInfo.mk model_run_id (ModelRun.state r2) None None)
  | None =>
      (m, ModelRunInfo.mk model_run_id ERROR None (Some (unknown_reason "initialize")))
  end.

Definition run (model_run_id : string) (m : Model) : Model * ModelRunInfo.t :=
  match dict_get model_run_id (model_run_dict m) with
  | Some r =>
      let state := ModelRun.state r in
      if negb (ModelState_eqb state READY) then
        (m, ModelRunInfo.mk model_run_id (ModelRun.state r) None (Some not_ready_reason))
      else
        let r' := ModelRun.set_state RUNNING r in
        (with_dict (dict_set model_run_id r' (model_run_dict m)) m,
         ModelRunInfo.mk model_run_id (ModelRun.state r') None None)
  | None =>
      (m, ModelRunInfo.mk model_run_id ERROR None (Some (unknown_reason "run")))
  end.

Definition status (model_run_id : string) (m : Model) : Model * ModelRunInfo.t :=
  match dict_get model_run_id (model_run_dict m) with
  | Some r =>
      let r' := ModelRun.set_state SUCCEEDED r in
      (with_dict (dict_set model_run_id r' (model_run_dict m)) m,
       ModelRunInfo.mk model_run_id (ModelRun.state r') None None)
  | None =>
      (m, ModelRunInfo.mk model_run_id ERROR None (Some (unknown_reason "status")))
  end.

Definition results (model_run_id : string) (m : Model) : Model * ModelRunInfo.t :=
  match dict_get model_run_id (model_run_dict m) with
  | Some r =>
      (m, ModelRunInfo.mk model_run_id (ModelRun.state r) (ModelRun.result r) None)
  | None =>
      (m, ModelRunInfo.mk model_run_id ERROR None (Some (unknown_reason "results")))
  end.

(** The scan of [remove] over [model_run_dict.values()].  Its body at the
    first PENDING record is the expression statement
    [m.state == ModelState.ACCEPTED]: a comparison whose value is dropped,
    followed by [break]. *)
Fixpoint accept_first_pending (d : dict ModelRun.t) : dict ModelRun.t :=
  match d with
  | [] => []
  | (k, m) :: rest =>
      if ModelState_eqb (ModelRun.state m) PENDING then
        let _ := ModelState_eqb (ModelRun.state m) ACCEPTED in
        (k, m) :: rest
      else (k, m) :: accept_first_pending rest
  end.

Definition remove (model_run_id : string) (m : Model) : Model * ModelRunInfo.t :=
  if dict_contains model_run_id (model_run_dict m) then
    let d := dict_del model_run_id (model_run_dict m) in
    let d' :=
      if Nat.ltb 0 (List.length (dict_keys d)) then accept_first_pending d else d in
    (with_dict d' m, ModelRunInfo.mk model_run_id UNKNOWN None None)
  else
    (m, ModelRunInfo.mk model_run_id ERROR None (Some (unknown_reason "remove"))).

Section Operations.
Context {impl : ModelImpl}.

(** The object-store branch of [store_result]: [bytes(res, 'utf8')], the
    split of the path, the bucket check and the upload. *)
Definition store_in_minio (res : pyval) (path : option string) (c : Minio)
  : Minio * outcome unit :=
  match res with
  | PStr text =>
      match path with
      | Some path =>
          let bucket := hd "" (split_slash path) in
          let rest_of_path := String.concat "/" (tl (split_slash path)) in
          let c1 :=
            if negb (bucket_exists bucket c) then make_bucket bucket c else c in
          match put_object bucket rest_of_path text (String.length text) c1 with
          | Some c2 => (c2, Return tt)
          | None => (c1, Raise S3Error)
          end
      | None => (c, Raise AttributeError)
      end
  | _ => (c, Raise TypeError)
  end.

(** The local-file branch of [store_result]. *)
Definition store_on_disk (res : pyval) (path : option string) (d : Disk)
  : Disk * outcome unit :=
  match path with
  | Some path =>
      if String.eqb (substring 0 7 path) "file://" then
        let filename := substring 7 (String.length path - 7) path in
        if can_open filename d then
          match res with
          | PStr text => (write_file filename text d, Return tt)
          | _ => (write_file filename "" d, Raise TypeError)
          end
        else (d, Raise OSError)
      else (d, Raise (IOError ("Don't know how to write file " ++ path)))
  | None => (d, Raise TypeError)
  end.

Definition path_value (path : option string) : pyval :=
  match path with Some p => PStr p | None => PNone end.

Definition store_result (model_run_id : string) (result : pyval) (w : World)
  : World * outcome ModelRunInfo.t :=
  let m := self w in
  match dict_get model_run_id (model_run_dict m) with
  | Some r =>
      let res := process_results result in
      let succeeded := ModelRunInfo.mk model_run_id SUCCEEDED None None in
      if truthy res then
        match ModelRun.config r with
        | Some cfg =>
            let path := output_esdl_file_path cfg in
            let r' := ModelRun.set_result (Some [("path", path_value path)]) r in
            let d' := dict_set model_run_id r' (model_run_dict m) in
            match minio_client m with
            | Some c =>
                match store_in_minio res path c with
                | (c', Return _) =>
                    ({| self := {| model_run_dict := d'; minio_client := Some c' |};
                        disk := disk w |},
                     Return succeeded)
                | (c', Raise e) =>
                    ({| self := {| model_run_dict := model_run_dict m;
                                   minio_client := Some c' |};
                        disk := disk w |},
                     Raise e)
                end
            | None =>
                match store_on_disk res path (disk w) with
                | (k', Return _) =>
                    ({| self := with_dict d' m; disk := k' |}, Return succeeded)
                | (k', Raise e) => ({| self := m; disk := k' |}, Raise e)
                end
            end
        | None => (w, Raise AttributeError)
        end
      else
        let r' := ModelRun.set_result (Some [("result", res)]) r in
        ({| self := with_dict (dict_set model_run_id r' (model_run_dict m)) m;
            disk := disk w |},
         Return succeeded)
  | None =>
      (w, Return (ModelRunInfo.mk model_run_id ERROR None
                    (Some (unknown_reason "store_result"))))
  end.

(** ** Calls and sequences of calls *)

Inductive op : Type :=
| Request (uuid : string)
| Initialize (model_run_id : string) (config : option OperaAdapterConfig)
| Run (model_run_id : string)
| Status (model_run_id : string)
| StoreResult (model_run_id : string) (result : pyval)
| Results (model_run_id : string)
| Remove (model_run_id : string).

(** The identifier an operation is called with; [request] takes none. *)
Definition op_id (o : op) : option string :=
  match o with
  | Request _ => None
  | Initialize i _ | Run i | Status i | StoreResult i _ | Results i | Remove i =>
      Some i
  end.

Definition op_name (o : op) : string :=
  match o with
  | Request _ => "request"
  | Initialize _ _ => "initialize"
  | Run _ => "run"
  | Status _ => "status"
  | StoreResult _ _ => "store_result"
  | Results _ => "results"
  | Remove _ => "remove"
  end.

(** The identifier [uuid4()] draws during the call, if the call draws one. *)
Definition op_uuid (o : op) : option string :=
  match o with Request u => Some u | _ => None end.

Definition on_model (f : Model -> Model * ModelRunInfo.t) (w : World)
  : World * outcome ModelRunInfo.t :=
  let (m', info) := f (self w) in
  ({| self := m'; disk := disk w |}, Return info).

Definition exec (o : op) (w : World) : World * outcome ModelRunInfo.t :=
  match o with
  | Request u => on_model (request u) w
  | Initialize i c => on_model (initialize i c) w
  | Run i => on_model (run i) w
  | Status i => on_model (status i) w
  | StoreResult i raw => store_result i raw w
  | Results i => on_model (results i) w
  | Remove i => on_model (remove i) w
  end.

(** A caller that issues [ops] one after the other on the same object; an
    exception ends the call that raised it, not the object. *)
Fixpoint exec_all (ops : list op) (w : World)
  : World * list (outcome ModelRunInfo.t) :=
  match ops with
  | [] => (w, [])
  | o :: rest =>
      let (w1, out) := exec o w in
      let (w2, outs) := exec_all rest w1 in
      (w2, out :: outs)
  end.

Definition registry (w : World) : dict ModelRun.t := model_run_dict (self w).


(** How one call changes the registry: not at all, by assigning attributes
    of a record that is there, by adding the record of a drawn identifier,
    or by deleting a record. *)
Inductive registry_change (o : op) (d : dict ModelRun.t) : dict ModelRun.t -> Prop :=
| rc_same : registry_change o d d
| rc_assign i r r' :
    op_id o = Some i ->
    dict_get i d = Some r ->
    ((forall c, o <> Initialize i c) -> ModelRun.config r' = ModelRun.config r) ->
    registry_change o d (dict_set i r' d)
| rc_create u :
    o = Request u ->
    registry_change o d (dict_set u (ModelRun.mk ACCEPTED None None) d)
| rc_delete i :
    o = Remove i ->
    registry_change o d (dict_del i d).

(** One call, with the world before and after it and what it answered. *)
Record step : Type := {
  before : World;
  call : op;
  answer : outcome ModelRunInfo.t;
  after : World
}.

Fixpoint trace (ops : list op) (w : World) : list step :=
  match ops with
  | [] => []
  | o :: rest =>
      let (w1, out) := exec o w in
      {| before := w; call := o; answer := out; after := w1 |} :: trace rest w1
  end.

(** The identifiers [uuid4] hands out during [ops], in order. *)
Definition drawn (ops : list op) : list string :=
  flat_map (fun o => match op_uuid o with Some u => [u] | None => [] end) ops.

(** The identifier a step returns to the caller of [request]. *)
Definition returned_id (s : step) : list string :=
  match call s with
  | Request _ =>
      match answer s with
      | Return info => [ModelRunInfo.model_run_id info]
      | Raise _ => []
      end
  | _ => []
  end.

Definition requested_ids (ops : list op) (w : World) : list string :=
  flat_map returned_id (trace ops w).

(** What a call of [request] must look like in a trace. *)
Definition request_adds_one (s : step) : Prop :=
  forall u, call s = Request u ->
    answer s = Return (ModelRunInfo.mk u ACCEPTED None None) /\
    dict_get u (registry (before s)) = None /\
    registry (after s) =
      (registry (before s) ++ [(u, ModelRun.mk ACCEPTED None None)])%list.

End Operations.

(** Two processors used in the examples: the identity, and one that never
    produces an artifact. *)
Definition identity_processor : ModelImpl := {| process_results := fun r => r |}.
Definition silent_processor : ModelImpl := {| process_results := fun _ => PNone |}.

Definition world0 : World :=
  {| self := init None; disk := {| files := []; refused := [] |} |}.

Definition out_cfg (path : string) : OperaAdapterConfig :=
  {| input_esdl_file_path_1 := None; input_esdl_file_path_2 := None;
     output_esdl_file_path := Some path; base_path := None |}.

(** The registry reached by request, initialize and run of one identifier. *)
Definition started (id : string) : Model :=
  fst (run id (fst (initialize id None (fst (request id (init None)))))).

(** A registry with one admitted run and two runs waiting for admission. *)
Definition waiting : Model :=
  {| model_run_dict :=
       [("a", ModelRun.mk ACCEPTED None None);
        ("b", ModelRun.mk PENDING None None);
        ("c", ModelRun.mk PENDING None None)];
     minio_client := None |}.


(** The world after request, initialize and run of ["r1"], with the output
    path [path]. *)
Definition running_world (path : string) : World :=
  fst (@exec_all identity_processor
         [Request "r1"; Initialize "r1" (Some (out_cfg path)); Run "r1"] world0).

Definition three_requests : list op :=
  [Request "r1"; Request "r2"; Remove "r1"; Request "r3"].

(** ** Paths, and reading back from the object store *)

(** [path.split("/")[0]] and ["/".join(path.split("/")[1:])]: how
    [store_result] and [load_from_minio] cut a path into the bucket and the
    name of the object. *)
Definition path_bucket (path : string) : string := hd "" (split_slash path).

Definition path_rest (path : string) : string :=
  String.concat "/" (tl (split_slash path)).

(** No character of [s] is a slash. *)
Fixpoint no_slash (s : string) : bool :=
  match s with
  | EmptyString => true
  | String c s' => negb (Ascii.eqb c "/") && no_slash s'
  end.

(** [get_object] of the client: the response, [None] standing for a response
    that tests false; a bucket or an object that is not there raises. *)
Definition get_object (bucket name : string) (c : Minio) : outcome (option string) :=
  match dict_get bucket c with
  | Some objects =>
      match dict_get name objects with
      | Some data => Return (Some data)
      | None => Raise S3Error
      end
  | None => Raise S3Error
  end.

(** [Model.load_from_minio]: [response.data], or [None] after the error
    message when the response tests false. *)
Definition load_from_minio (path : string) (m : Model) : outcome (option string) :=
  let bucket := path_bucket path in
  let rest_of_path := path_rest path in
  match minio_client m with
  | Some c =>
      match get_object bucket rest_of_path c with
      | Return (Some data) => Return (Some data)
      | Return None => Return None
      | Raise e => Raise e
      end
  | None => Raise AttributeError
  end.

(** ** Records that the operations of [Model] can produce *)

(** The states the operations assign to a record. *)
Definition managed_state (s : ModelState) : bool :=
  match s with
  | ACCEPTED | READY | RUNNING | SUCCEEDED => true
  | UNKNOWN | PENDING | QUEUED | ERROR => false
  end.

(** A record in a managed state, without a config as long as it is ACCEPTED. *)
Definition managed_record (r : ModelRun.t) : bool :=
  managed_state (ModelRun.state r) &&
  match ModelRun.state r, ModelRun.config r with
  | ACCEPTED, Some _ => false
  | _, _ => true
  end.

(** A world with an object store that holds one bucket with one object. *)
Definition minio_world (path : string) : World :=
  fst (@exec_all identity_processor
         [Request "r1"; Initialize "r1" (Some (out_cfg path)); Run "r1"]
         {| self := init (Some [("results", [("old.esdl", "<old/>")])]);
            disk := {| files := []; refused := [] |} |}).

(** A processor that answers with a number. *)
Definition counting_processor : ModelImpl := {| process_results := fun _ => PInt 1 |}.

(** * Properties *)

(** ** Dictionaries *)

Section DictFacts.
Context {V : Type}.
Implicit Types (d : dict V) (k : string) (v : V).

Lemma dict_get_set_eq k v d : dict_get k (dict_set k v d) = Some v.
Proof.
  induction d as [|[k' v'] rest IH]; simpl.
  - now rewrite String.eqb_refl.
  - destruct (String.eqb k k') eqn:E; simpl.
    + now rewrite String.eqb_refl.
    + now rewrite E.
Qed.

Lemma dict_get_set_neq k k' v d :
  k' <> k -> dict_get k' (dict_set k v d) = dict_get k' d.
Proof.
  intros Hne. apply String.eqb_neq in Hne.
  induction d as [|[k0 v0] rest IH]; simpl.
  - now rewrite Hne.
  - destruct (String.eqb k k0) eqn:E; simpl.
    + apply String.eqb_eq in E. subst k0. now rewrite Hne.
    + now rewrite IH.
Qed.

Lemma dict_get_del_eq k d : dict_get k (dict_del k d) = None.
Proof.
  induction d as [|[k' v'] rest IH]; simpl; [reflexivity|].
  destruct (String.eqb k k') eqn:E; simpl; [assumption|].
  now rewrite E.
Qed.

Lemma dict_get_del_neq k k' d :
  k' <> k -> dict_get k' (dict_del k d) = dict_get k' d.
Proof.
  intros Hne. apply String.eqb_neq in Hne.
  induction d as [|[k0 v0] rest IH]; simpl; [reflexivity|].
  destruct (String.eqb k k0) eqn:E; simpl.
  - apply String.eqb_eq in E. subst k0. now rewrite Hne.
  - now rewrite IH.
Qed.

(** Assigning to a key that is not there appends the entry. *)
Lemma dict_set_absent k v d :
  dict_get k d = None -> dict_set k v d = (d ++ [(k, v)])%list.
Proof.
  induction d as [|[k' v'] rest IH]; simpl; [reflexivity|].
  destruct (String.eqb k k'); [discriminate|].
  intros H. now rewrite IH.
Qed.


Lemma dict_contains_false k d :
  dict_contains k d = false <-> dict_get k d = None.
Proof.
  unfold dict_contains. destruct (dict_get k d); split; congruence.
Qed.
End DictFacts.

(** ** Small facts about states, strings and the scan of [remove] *)

Lemma ModelState_eqb_eq (a b : ModelState) : ModelState_eqb a b = true <-> a = b.
Proof. destruct a, b; simpl; split; congruence. Qed.

Lemma ModelState_eqb_neq (a b : ModelState) : ModelState_eqb a b = false <-> a <> b.
Proof. destruct a, b; simpl; split; congruence. Qed.

(** The slice [s[:len(p)]] equals [p] exactly when [s] begins with [p]. *)
Lemma slice_is_prefix (p s : string) :
  String.eqb (substring 0 (String.length p) s) p = String.prefix p s.
Proof.
  revert s. induction p as [|c p IH]; intros s; simpl.
  - destruct s; reflexivity.
  - destruct s as [|c' s]; simpl; [reflexivity|].
    destruct (Ascii.ascii_dec c c') as [->|Hne].
    + rewrite Ascii.eqb_refl. apply IH.
    + destruct (Ascii.eqb c' c) eqn:E; [|reflexivity].
      apply Ascii.eqb_eq in E. congruence.
Qed.

(** The scan compares and breaks; it assigns nothing. *)
Lemma accept_first_pending_same (d : dict ModelRun.t) : accept_first_pending d = d.
Proof.
  induction d as [|[k m] rest IH]; simpl; [reflexivity|].
  destruct (ModelState_eqb (ModelRun.state m) PENDING); [reflexivity|].
  now rewrite IH.
Qed.

Lemma remove_present (id : string) (m : Model) :
  dict_contains id (model_run_dict m) = true ->
  remove id m =
    (with_dict (dict_del id (model_run_dict m)) m, ModelRunInfo.mk id UNKNOWN None None).
Proof.
  intros H. unfold remove. rewrite H, accept_first_pending_same.
  now destruct (Nat.ltb _ _).
Qed.

Lemma world_eta (w : World) : {| self := self w; disk := disk w |} = w.
Proof. now destruct w. Qed.

(** ** [run] *)

(** What [run] does on a record that is there, by the state it is in. *)
Lemma run_ready (id : string) (m : Model) (r : ModelRun.t) :
  dict_get id (model_run_dict m) = Some r ->
  ModelRun.state r = READY ->
  run id m =
    (with_dict (dict_set id (ModelRun.set_state RUNNING r) (model_run_dict m)) m,
     ModelRunInfo.mk id RUNNING None None).
Proof. intros Hget Hst. unfold run. rewrite Hget, Hst. reflexivity. Qed.

Lemma run_not_ready (id : string) (m : Model) (r : ModelRun.t) :
  dict_get id (model_run_dict m) = Some r ->
  ModelRun.state r <> READY ->
  run id m = (m, ModelRunInfo.mk id (ModelRun.state r) None (Some not_ready_reason)).
Proof.
  intros Hget Hst. unfold run. rewrite Hget.
  apply ModelState_eqb_neq in Hst. now rewrite Hst.
Qed.

Lemma run_unknown (id : string) (m : Model) :
  dict_get id (model_run_dict m) = None ->
  run id m = (m, ModelRunInfo.mk id ERROR None (Some (unknown_reason "run"))).
Proof. intros Hget. unfold run. now rewrite Hget. Qed.

(** C1, as stated, fails: a second [run] on a record that is already RUNNING
    answers with state RUNNING although the record is not READY. *)
Lemma run_answers_running_when_not_ready :
  ModelRunInfo.state (snd (run "r1" (started "r1"))) = RUNNING /\
  ~ (exists r, dict_get "r1" (model_run_dict (started "r1")) = Some r /\
               ModelRun.state r = READY).
Proof.
  split; [reflexivity|].
  intros [r [Hget Hst]]. vm_compute in Hget.
  injection Hget as <-. discriminate Hst.
Qed.

(** C1 (amended): [run id] answers with state RUNNING exactly when the record
    for [id] exists and is READY or already RUNNING, and with state RUNNING and
    no reason exactly when it exists and is READY.  A READY record is set to
    RUNNING; a record in any other state is left as it is and the answer
    carries that state with the reason that the model is not in READY state. *)
Theorem run_running_iff (id : string) (m : Model) :
  (ModelRunInfo.state (snd (run id m)) = RUNNING <->
     exists r, dict_get id (model_run_dict m) = Some r /\
               (ModelRun.state r = READY \/ ModelRun.state r = RUNNING)) /\
  (ModelRunInfo.state (snd (run id m)) = RUNNING /\
   ModelRunInfo.reason (snd (run id m)) = None <->
     exists r, dict_get id (model_run_dict m) = Some r /\ ModelRun.state r = READY) /\
  (forall r, dict_get id (model_run_dict m) = Some r -> ModelRun.state r = READY ->
     dict_get id (model_run_dict (fst (run id m))) = Some (ModelRun.set_state RUNNING r)) /\
  (forall r, dict_get id (model_run_dict m) = Some r -> ModelRun.state r <> READY ->
     fst (run id m) = m /\
     snd (run id m) = ModelRunInfo.mk id (ModelRun.state r) None (Some not_ready_reason)).
Proof.
  destruct (dict_get id (model_run_dict m)) as [r|] eqn:Hget.
  - destruct (ModelState_eqb (ModelRun.state r) READY) eqn:Hst.
    + apply ModelState_eqb_eq in Hst.
      rewrite (run_ready id m r Hget Hst). simpl.
      split; [|split; [|split]].
      * split; [intros _; exists r; auto | reflexivity].
      * split; [intros _; exists r; auto | auto].
      * intros r0 H0 _. injection H0 as <-. apply dict_get_set_eq.
      * intros r0 H0 Hn. injection H0 as <-. contradiction.
    + apply ModelState_eqb_neq in Hst.
      rewrite (run_not_ready id m r Hget Hst). simpl.
      split; [|split; [|split]].
      * split.
        -- intros H. exists r. auto.
        -- intros [r0 [H0 [H1|H1]]]; injection H0 as <-;
             [contradiction | assumption].
      * split.
        -- intros [_ H]. discriminate H.
        -- intros [r0 [H0 H1]]. injection H0 as <-. contradiction.
      * intros r0 H0 H1. injection H0 as <-. contradiction.
      * intros r0 H0 _. injection H0 as <-. split; reflexivity.
  - rewrite (run_unknown id m Hget). simpl.
    split; [|split; [|split]].
    + split; [discriminate | intros [r [H0 _]]; discriminate H0].
    + split; [intros [H _]; discriminate H | intros [r [H0 _]]; discriminate H0].
    + intros r H0. discriminate H0.
    + intros r H0. discriminate H0.
Qed.

(** The amended C1 at the registry [{"r1": READY}]. *)
Lemma run_running_iff_witness :
  ModelRunInfo.state
    (snd (run "r1" (fst (initialize "r1" None (fst (request "r1" (init None)))))))
  = RUNNING.
Proof.
  apply (proj1 (run_running_iff "r1"
                  (fst (initialize "r1" None (fst (request "r1" (init None))))))).
  exists (ModelRun.mk READY None None). split; [reflexivity | left; reflexivity].
Defined.

(** ** [remove] *)

(** C4: on [waiting], [remove "a"] deletes the record of ["a"] and admits
    nobody: both waiting runs are still PENDING afterwards. *)
Theorem remove_admits_no_pending :
  remove "a" waiting =
    ({| model_run_dict :=
          [("b", ModelRun.mk PENDING None None);
           ("c", ModelRun.mk PENDING None None)];
        minio_client := None |},
     ModelRunInfo.mk "a" UNKNOWN None None).
Proof. reflexivity. Qed.

(** C10: [remove id] on a registry that holds [id] leaves the record of every
    other identifier as it was: same state, same config, same result, whether
    or not PENDING records are present. *)
Theorem remove_frame (id id' : string) (m : Model) :
  dict_contains id (model_run_dict m) = true ->
  id' <> id ->
  dict_get id' (model_run_dict (fst (remove id m))) = dict_get id' (model_run_dict m).
Proof.
  intros Hin Hne. rewrite (remove_present id m Hin). simpl.
  now apply dict_get_del_neq.
Qed.

Lemma remove_frame_witness :
  dict_get "b" (model_run_dict (fst (remove "a" waiting))) =
  dict_get "b" (model_run_dict waiting).
Proof.
  apply (remove_frame "a" "b" waiting); [reflexivity | discriminate].
Defined.

(** ** The registry across one call *)

Section Calls.
Context {impl : ModelImpl}.

(** A call of [store_result] on a record that is there either raises and
    leaves the registry alone, or returns SUCCEEDED after assigning the
    [result] attribute of that record and nothing else. *)
Lemma store_result_present (id : string) (raw : pyval) (w : World) (r : ModelRun.t) :
  dict_get id (registry w) = Some r ->
  (exists e, snd (store_result id raw w) = Raise e /\
             registry (fst (store_result id raw w)) = registry w) \/
  (exists res,
      snd (store_result id raw w) = Return (ModelRunInfo.mk id SUCCEEDED None None) /\
      registry (fst (store_result id raw w)) =
        dict_set id (ModelRun.set_result (Some res) r) (registry w)).
Proof.
  unfold registry. intros Hget. unfold store_result. rewrite Hget.
  destruct (truthy (process_results raw)).
  - destruct (ModelRun.config r) as [cfg|]; [|left; eexists; split; reflexivity].
    destruct (minio_client (self w)) as [c|].
    + destruct (store_in_minio _ _ c) as [c' [[]|e]]; simpl.
      * right. eexists. split; reflexivity.
      * left. eexists. split; reflexivity.
    + destruct (store_on_disk _ _ (disk w)) as [k' [[]|e]]; simpl.
      * right. eexists. split; reflexivity.
      * left. eexists. split; reflexivity.
  - right. eexists. split; reflexivity.
Qed.

Lemma store_result_unknown (id : string) (raw : pyval) (w : World) :
  dict_get id (registry w) = None ->
  store_result id raw w =
    (w, Return (ModelRunInfo.mk id ERROR None (Some (unknown_reason "store_result")))).
Proof. unfold registry, store_result. intros H. now rewrite H. Qed.

Lemma exec_registry_change (o : op) (w : World) :
  registry_change o (registry w) (registry (fst (exec o w))).
Proof.
  destruct o as [u|i c|i|i|i raw|i|i]; simpl.
  - unfold on_model, request, registry. simpl. now apply rc_create.
  - unfold on_model, initialize, registry.
    destruct (dict_get i (model_run_dict (self w))) as [r|] eqn:Hget; simpl.
    + eapply rc_assign; eauto. intros H. now specialize (H c).
    + apply rc_same.
  - unfold on_model, run, registry.
    destruct (dict_get i (model_run_dict (self w))) as [r|] eqn:Hget; simpl.
    + destruct (negb _); simpl; [apply rc_same|].
      eapply rc_assign; eauto.
    + apply rc_same.
  - unfold on_model, status, registry.
    destruct (dict_get i (model_run_dict (self w))) as [r|] eqn:Hget; simpl.
    + eapply rc_assign; eauto.
    + apply rc_same.
  - destruct (dict_get i (registry w)) as [r|] eqn:Hget.
    + destruct (store_result_present i raw w r Hget) as [[e [_ H]]|[res [_ H]]];
        rewrite H; [apply rc_same|].
      eapply rc_assign; eauto.
    + rewrite (store_result_unknown i raw w Hget). apply rc_same.
  - unfold on_model, results, registry.
    destruct (dict_get i (model_run_dict (self w))); simpl; apply rc_same.
  - unfold on_model, registry.
    destruct (dict_contains i (model_run_dict (self w))) eqn:Hin.
    + rewrite (remove_present i _ Hin). simpl. now apply rc_delete.
    + unfold remove. rewrite Hin. simpl. apply rc_same.
Qed.

(** An identifier that is absent stays absent unless [request] draws it. *)
Lemma exec_keeps_absent (o : op) (w : World) (id : string) :
  dict_get id (registry w) = None ->
  op_uuid o <> Some id ->
  dict_get id (registry (fst (exec o w))) = None.
Proof.
  intros Habs Hu.
  destruct (exec_registry_change o w) as [|i r r' _ Hget _|u ->|i _].
  - assumption.
  - rewrite dict_get_set_neq; [assumption|]. intros ->. congruence.
  - rewrite dict_get_set_neq; [assumption|]. intros ->. now apply Hu.
  - destruct (String.eqb_spec id i) as [->|Hne].
    + apply dict_get_del_eq.
    + now rewrite dict_get_del_neq.
Qed.
End Calls.

(** ** Calls with an identifier that is not in the registry *)

Section UnknownRun.
Context {impl : ModelImpl}.

Lemma exec_unknown (o : op) (id : string) (w : World) :
  op_id o = Some id ->
  dict_get id (registry w) = None ->
  exec o w =
    (w, Return (ModelRunInfo.mk id ERROR None (Some (unknown_reason (op_name o))))).
Proof.
  intros Hid Habs.
  destruct o as [u|i c|i|i|i raw|i|i]; simpl in Hid; try discriminate;
    injection Hid as ->; simpl.
  - unfold on_model, initialize. unfold registry in Habs. rewrite Habs.
    now rewrite world_eta.
  - unfold on_model. unfold registry in Habs. rewrite (run_unknown id _ Habs).
    now rewrite world_eta.
  - unfold on_model, status. unfold registry in Habs. rewrite Habs.
    now rewrite world_eta.
  - now apply store_result_unknown.
  - unfold on_model, results. unfold registry in Habs. rewrite Habs.
    now rewrite world_eta.
  - unfold on_model, remove. apply dict_contains_false in Habs.
    unfold registry in Habs. rewrite Habs. now rewrite world_eta.
Qed.

(** C7: each of [initialize], [run], [status], [store_result], [results] and
    [remove], called with an identifier that is not in the registry, returns
    (it does not raise) a [ModelRunInfo] with state ERROR and a reason that
    is not empty and names the operation, and leaves the registry, the
    object store and the disk exactly as they were. *)
Theorem unknown_run (o : op) (id : string) (w : World) :
  op_id o = Some id ->
  dict_get id (registry w) = None ->
  exec o w =
    (w, Return (ModelRunInfo.mk id ERROR None (Some (unknown_reason (op_name o))))) /\
  unknown_reason (op_name o) <> "" /\
  (forall o', op_name o' <> op_name o ->
              unknown_reason (op_name o') <> unknown_reason (op_name o)).
Proof.
  intros Hid Habs. split; [|split].
  - now apply exec_unknown.
  - destruct o; discriminate.
  - intros o' Hne. destruct o, o'; simpl in *;
      solve [congruence | intros H; vm_compute in H; discriminate H].
Qed.

End UnknownRun.

Lemma unknown_run_witness :
  @exec identity_processor (Run "nonexistent") world0 =
    (world0,
     Return (ModelRunInfo.mk "nonexistent" ERROR None
               (Some "Error in Model.run(): model_run_id unknown"))).
Proof.
  exact (proj1 (@unknown_run identity_processor (Run "nonexistent") "nonexistent"
                  world0 eq_refl eq_refl)).
Defined.


(** ** [store_result] *)

Section StoreResultFacts.
Context {impl : ModelImpl}.

(** C2 (amended): a call of [store_result] that returns, on an identifier
    that is in the registry, returns state SUCCEEDED and leaves the state of
    the stored record as it was; a call of [results] after it reports that
    earlier state. *)
Theorem store_result_keeps_state (id : string) (raw : pyval) (w : World)
    (r : ModelRun.t) (info : ModelRunInfo.t) :
  dict_get id (registry w) = Some r ->
  snd (store_result id raw w) = Return info ->
  ModelRunInfo.state info = SUCCEEDED /\
  (exists r', dict_get id (registry (fst (store_result id raw w))) = Some r' /\
              ModelRun.state r' = ModelRun.state r) /\
  ModelRunInfo.state (snd (results id (self (fst (store_result id raw w))))) =
    ModelRun.state r.
Proof.
  intros Hget Hret.
  destruct (store_result_present id raw w r Hget) as [[e [He _]]|[res [Hres Hreg]]].
  - rewrite He in Hret. discriminate Hret.
  - rewrite Hres in Hret. injection Hret as <-.
    assert (Hafter : dict_get id (registry (fst (store_result id raw w))) =
                     Some (ModelRun.set_result (Some res) r))
      by (rewrite Hreg; apply dict_get_set_eq).
    split; [reflexivity|]. split.
    + eexists. split; [exact Hafter | reflexivity].
    + unfold results. unfold registry in Hafter. now rewrite Hafter.
Qed.

(** C3 (amended): when the processor returns a falsy value [res],
    [store_result] sets the [result] attribute of the record to
    [{"result": res}], the processed value and not the raw one, writes
    nothing to the disk or to the object store, and returns SUCCEEDED. *)
Theorem store_result_falsy (id : string) (raw : pyval) (w : World) (r : ModelRun.t) :
  dict_get id (registry w) = Some r ->
  truthy (process_results raw) = false ->
  store_result id raw w =
    ({| self :=
          {| model_run_dict :=
               dict_set id
                 (ModelRun.set_result (Some [("result", process_results raw)]) r)
                 (registry w);
             minio_client := minio_client (self w) |};
        disk := disk w |},
     Return (ModelRunInfo.mk id SUCCEEDED None None)).
Proof.
  unfold registry. intros Hget Hfalsy. unfold store_result.
  rewrite Hget, Hfalsy. reflexivity.
Qed.

(** C9: without an object store, with a processor that returns a truthy
    artifact and a configured output path that does not begin with
    [file://], [store_result] raises [IOError] instead of returning, and
    leaves the registry (the state and result of the record included) and
    the disk as they were. *)
Theorem store_result_unsupported_path (id : string) (raw : pyval) (w : World)
    (r : ModelRun.t) (cfg : OperaAdapterConfig) (path : string) :
  minio_client (self w) = None ->
  dict_get id (registry w) = Some r ->
  ModelRun.config r = Some cfg ->
  output_esdl_file_path cfg = Some path ->
  truthy (process_results raw) = true ->
  String.prefix "file://" path = false ->
  store_result id raw w =
    (w, Raise (IOError ("Don't know how to write file " ++ path))).
Proof.
  unfold registry. intros Hminio Hget Hcfg Hpath Htruthy Hprefix.
  unfold store_result. rewrite Hget, Htruthy, Hcfg, Hminio, Hpath.
  unfold store_on_disk.
  change 7 with (String.length "file://") at 1.
  rewrite slice_is_prefix, Hprefix.
  now rewrite world_eta.
Qed.
End StoreResultFacts.

(** C2, as stated, fails: in the scenario of the specification the call of
    [store_result] returns SUCCEEDED, the file is written, and the record is
    still RUNNING, which is what [results] then reports. *)
Lemma store_result_record_not_succeeded :
  dict_contains "r1" (registry (running_world "file:///tmp/out.esdl")) = true /\
  snd (@store_result identity_processor "r1" (PStr "<xml/>")
         (running_world "file:///tmp/out.esdl"))
    = Return (ModelRunInfo.mk "r1" SUCCEEDED None None) /\
  snd (results "r1"
         (self (fst (@store_result identity_processor "r1" (PStr "<xml/>")
                       (running_world "file:///tmp/out.esdl")))))
    = ModelRunInfo.mk "r1" RUNNING (Some [("path", PStr "file:///tmp/out.esdl")]) None /\
  ModelRunInfo.state
    (snd (results "r1"
            (self (fst (@store_result identity_processor "r1" (PStr "<xml/>")
                          (running_world "file:///tmp/out.esdl"))))))
    <> SUCCEEDED.
Proof. repeat split; try reflexivity. vm_compute. discriminate. Qed.

Lemma store_result_keeps_state_witness :
  ModelRunInfo.state
    (snd (results "r1"
            (self (fst (@store_result identity_processor "r1" (PStr "<xml/>")
                          (running_world "file:///tmp/out.esdl"))))))
    = RUNNING.
Proof.
  exact (proj2 (proj2 (@store_result_keeps_state identity_processor "r1" (PStr "<xml/>")
                         (running_world "file:///tmp/out.esdl")
                         (ModelRun.mk RUNNING (Some (out_cfg "file:///tmp/out.esdl")) None)
                         (ModelRunInfo.mk "r1" SUCCEEDED None None)
                         eq_refl eq_refl))).
Defined.

(** C3, as stated, fails: with a processor that returns [None], the raw
    result ["<xml/>"] is not what ends up in the record; [None] is. *)
Lemma store_result_falsy_keeps_processed_value :
  truthy (@process_results silent_processor (PStr "<xml/>")) = false /\
  dict_get "r1"
    (registry (fst (@store_result silent_processor "r1" (PStr "<xml/>")
                      (running_world "file:///tmp/out.esdl"))))
    = Some (ModelRun.mk RUNNING (Some (out_cfg "file:///tmp/out.esdl"))
              (Some [("result", PNone)])) /\
  ModelRun.mk RUNNING (Some (out_cfg "file:///tmp/out.esdl")) (Some [("result", PNone)])
    <> ModelRun.mk RUNNING (Some (out_cfg "file:///tmp/out.esdl"))
         (Some [("result", PStr "<xml/>")]).
Proof. repeat split; try reflexivity. discriminate. Qed.

Lemma store_result_falsy_witness :
  @store_result silent_processor "r1" (PStr "<xml/>")
    (running_world "file:///tmp/out.esdl") =
    ({| self :=
          {| model_run_dict :=
               [("r1", ModelRun.mk RUNNING (Some (out_cfg "file:///tmp/out.esdl"))
                         (Some [("result", PNone)]))];
             minio_client := None |};
        disk := {| files := []; refused := [] |} |},
     Return (ModelRunInfo.mk "r1" SUCCEEDED None None)).
Proof.
  exact (@store_result_falsy silent_processor "r1" (PStr "<xml/>")
           (running_world "file:///tmp/out.esdl")
           (ModelRun.mk RUNNING (Some (out_cfg "file:///tmp/out.esdl")) None)
           eq_refl eq_refl).
Defined.

Lemma store_result_unsupported_path_witness :
  @store_result identity_processor "r1" (PStr "<xml/>")
    (running_world "s3://bucket/out.esdl") =
    (running_world "s3://bucket/out.esdl",
     Raise (IOError "Don't know how to write file s3://bucket/out.esdl")).
Proof.
  exact (@store_result_unsupported_path identity_processor "r1" (PStr "<xml/>")
           (running_world "s3://bucket/out.esdl")
           (ModelRun.mk RUNNING (Some (out_cfg "s3://bucket/out.esdl")) None)
           (out_cfg "s3://bucket/out.esdl") "s3://bucket/out.esdl"
           eq_refl eq_refl eq_refl eq_refl eq_refl eq_refl).
Defined.

(** ** [request] and the identifiers drawn by [uuid4] *)

Section Requests.
Context {impl : ModelImpl}.

Lemma exec_request (u : string) (w : World) :
  exec (Request u) w =
    ({| self := with_dict (dict_set u (ModelRun.mk ACCEPTED None None) (registry w))
                  (self w);
        disk := disk w |},
     Return (ModelRunInfo.mk u ACCEPTED None None)).
Proof.
  simpl. unfold on_model, request, registry. now rewrite dict_get_set_eq.
Qed.

Lemma trace_requests (ops : list op) :
  forall w,
    NoDup (drawn ops) ->
    (forall u, In u (drawn ops) -> dict_get u (registry w) = None) ->
    Forall request_adds_one (trace ops w) /\ requested_ids ops w = drawn ops.
Proof.
  induction ops as [|o rest IH]; intros w Hnd Hfresh.
  - split; [constructor | reflexivity].
  - unfold requested_ids. simpl trace.
    destruct (exec o w) as [w1 out] eqn:E.
    assert (Hrest : NoDup (drawn rest)).
    { unfold drawn in Hnd. simpl in Hnd. now apply NoDup_app_remove_l in Hnd. }
    assert (Hfresh1 : forall u, In u (drawn rest) -> dict_get u (registry w1) = None).
    { intros u Hu.
      replace w1 with (fst (exec o w)) by now rewrite E.
      apply exec_keeps_absent.
      - apply Hfresh. unfold drawn. simpl. apply in_or_app. now right.
      - intros Ho. unfold drawn in Hnd. simpl in Hnd. rewrite Ho in Hnd.
        simpl in Hnd. inversion Hnd as [|? ? Hnotin _]. now apply Hnotin. }
    destruct (IH w1 Hrest Hfresh1) as [Hall Hids].
    split.
    + constructor; [|assumption].
      intros u Hcall. simpl in Hcall. subst o.
      rewrite exec_request in E. injection E as <- <-. simpl.
      assert (Habs : dict_get u (registry w) = None)
        by (apply Hfresh; simpl; now left).
      split; [reflexivity|]. split; [assumption|].
      unfold registry at 1. simpl. now apply dict_set_absent.
    + simpl. fold (requested_ids rest w1). rewrite Hids.
      unfold returned_id, drawn. simpl.
      destruct o; try reflexivity.
      rewrite exec_request in E. injection E as <- <-. reflexivity.
Qed.

End Requests.


(** ** The [config] attribute *)

(** C5, as stated, fails: [initialize] takes [None] for a config (it is the
    default of the parameter) and [run] does not look at config, so three
    calls give a RUNNING record whose config is [None]. *)
Lemma running_without_config :
  dict_get "r1"
    (registry (fst (@exec_all identity_processor
                      [Request "r1"; Initialize "r1" None; Run "r1"] world0)))
    = Some (ModelRun.mk RUNNING None None) /\
  ModelRun.state (ModelRun.mk RUNNING None None) = RUNNING /\
  ModelRun.config (ModelRun.mk RUNNING None None) = None.
Proof. repeat split. Qed.

Section Config.
Context {impl : ModelImpl}.

(** C5 (amended): the config of a record that is in the registry is changed
    by [initialize] only: no other call changes it, as long as [uuid4] does
    not draw the identifier again.  [request] creates a record with config
    [None]; [initialize] assigns whatever config it is given, [None]
    included, on every call and whatever the state; and [run] moves a READY
    record to RUNNING without looking at its config. *)
Theorem config_assigned_by_initialize (id : string) (w : World) (r : ModelRun.t) :
  dict_get id (registry w) = Some r ->
  (forall o r',
      (forall c, o <> Initialize id c) ->
      op_uuid o <> Some id ->
      dict_get id (registry (fst (exec o w))) = Some r' ->
      ModelRun.config r' = ModelRun.config r) /\
  (forall u, dict_get u (registry (fst (exec (Request u) w))) =
             Some (ModelRun.mk ACCEPTED None None)) /\
  (forall c, dict_get id (registry (fst (exec (Initialize id c) w))) =
             Some (ModelRun.mk READY c (ModelRun.result r))) /\
  (ModelRun.state r = READY ->
   dict_get id (registry (fst (exec (Run id) w))) =
     Some (ModelRun.mk RUNNING (ModelRun.config r) (ModelRun.result r))).
Proof.
  intros Hget. split; [|split; [|split]].
  - intros o r' Hinit Hu Hafter.
    destruct (exec_registry_change o w) as [|i r0 r1 Hid Hget0 Hcfg|u ->|i _].
    + congruence.
    + destruct (String.eqb_spec id i) as [<-|Hne].
      * rewrite dict_get_set_eq in Hafter. injection Hafter as <-.
        rewrite (Hcfg Hinit). congruence.
      * rewrite dict_get_set_neq in Hafter by assumption. congruence.
    + rewrite dict_get_set_neq in Hafter; [congruence|].
      intros ->. now apply Hu.
    + destruct (String.eqb_spec id i) as [<-|Hne].
      * rewrite dict_get_del_eq in Hafter. discriminate Hafter.
      * rewrite dict_get_del_neq in Hafter by assumption. congruence.
  - intros u. rewrite exec_request. unfold registry at 1. simpl.
    apply dict_get_set_eq.
  - intros c. simpl. unfold on_model, initialize. unfold registry in Hget.
    rewrite Hget. unfold registry. simpl. apply dict_get_set_eq.
  - intros Hready. simpl. unfold on_model. unfold registry in Hget.
    rewrite (run_ready id _ r Hget Hready). unfold registry. simpl.
    rewrite dict_get_set_eq. unfold ModelRun.set_state. reflexivity.
Qed.
End Config.

Lemma config_assigned_by_initialize_witness :
  dict_get "r1"
    (registry (fst (@exec identity_processor (Run "r1")
                      (fst (@exec_all identity_processor
                              [Request "r1"; Initialize "r1" None] world0)))))
    = Some (ModelRun.mk RUNNING None None).
Proof.
  exact (proj2 (proj2 (proj2
           (@config_assigned_by_initialize identity_processor "r1"
              (fst (@exec_all identity_processor
                      [Request "r1"; Initialize "r1" None] world0))
              (ModelRun.mk READY None None) eq_refl))) eq_refl).
Defined.

(** * Further properties of the code *)

(** ** The split of a path into bucket and object name *)

Lemma split_slash_cons (s : string) : exists h t, split_slash s = h :: t.
Proof.
  destruct s as [|c s]; simpl; [eauto|].
  destruct (Ascii.eqb c "/"); [eauto|].
  destruct (split_slash s); eauto.
Qed.

Lemma concat_slash_cons (c : ascii) (h : string) (t : list string) :
  String.concat "/" (String c h :: t) = String c (String.concat "/" (h :: t)).
Proof. destruct t; reflexivity. Qed.

(** Joining the pieces of [s.split("/")] with slashes gives [s] back. *)
Lemma concat_split_slash (s : string) : String.concat "/" (split_slash s) = s.
Proof.
  induction s as [|c s IH]; simpl; [reflexivity|].
  destruct (split_slash_cons s) as [h [t E]]. rewrite E in *.
  destruct (Ascii.eqb c "/") eqn:Ec.
  - apply Ascii.eqb_eq in Ec. subst c.
    change (String.concat "/" ("" :: h :: t))
      with (String "/" (String.concat "/" (h :: t))).
    now rewrite IH.
  - rewrite concat_slash_cons. now rewrite IH.
Qed.

Lemma split_slash_no_slash (s : string) : no_slash s = true -> split_slash s = [s].
Proof.
  induction s as [|c s IH]; simpl; [reflexivity|].
  intros H. apply andb_true_iff in H. destruct H as [Hc Hs].
  apply negb_true_iff in Hc. rewrite Hc, (IH Hs). reflexivity.
Qed.

Lemma split_slash_app (b rest : string) :
  no_slash b = true -> split_slash (b ++ "/" ++ rest) = b :: split_slash rest.
Proof.
  induction b as [|c b IH]; simpl; [reflexivity|].
  intros H. apply andb_true_iff in H. destruct H as [Hc Hb].
  apply negb_true_iff in Hc. rewrite Hc. simpl in IH. now rewrite (IH Hb).
Qed.

Lemma no_slash_first_piece (s : string) : no_slash (hd "" (split_slash s)) = true.
Proof.
  induction s as [|c s IH]; simpl; [reflexivity|].
  destruct (Ascii.eqb c "/") eqn:Ec; [reflexivity|].
  destruct (split_slash_cons s) as [h [t E]]. rewrite E in *. simpl in *.
  now rewrite Ec, IH.
Qed.

(** X1: the bucket cut from a path never contains a slash, and bucket and
    object name put the path together again: a path without a slash is its
    own bucket, with the empty object name; any other path is the bucket, a
    slash and the object name. *)
Theorem path_bucket_rest (path : string) :
  no_slash (path_bucket path) = true /\
  (if no_slash path
   then path_bucket path = path /\ path_rest path = ""
   else path = path_bucket path ++ "/" ++ path_rest path).
Proof.
  split; [apply no_slash_first_piece|].
  destruct (no_slash path) eqn:Hns.
  - unfold path_bucket, path_rest. rewrite (split_slash_no_slash path Hns).
    split; reflexivity.
  - unfold path_bucket, path_rest.
    pose proof (concat_split_slash path) as Hc.
    destruct (split_slash_cons path) as [h [t E]]. rewrite E in *. simpl.
    destruct t as [|h' t].
    + simpl in Hc. subst h.
      assert (Hh : no_slash path = true).
      { pose proof (no_slash_first_piece path) as H0. now rewrite E in H0. }
      congruence.
    + now rewrite <- Hc.
Qed.

(** X2: a path made of a bucket name without a slash, a slash and an object
    name is cut back into exactly that bucket and that object name, whatever
    slashes the object name contains. *)
Theorem path_of_bucket_and_name (bucket name : string) :
  no_slash bucket = true ->
  path_bucket (bucket ++ "/" ++ name) = bucket /\
  path_rest (bucket ++ "/" ++ name) = name.
Proof.
  intros Hb. unfold path_bucket, path_rest.
  rewrite (split_slash_app bucket name Hb). simpl.
  split; [reflexivity | apply concat_split_slash].
Qed.

Lemma path_of_bucket_and_name_witness :
  path_bucket "results/run1/out.esdl" = "results" /\
  path_rest "results/run1/out.esdl" = "run1/out.esdl".
Proof. exact (path_of_bucket_and_name "results" "run1/out.esdl" eq_refl). Defined.

(** ** [store_result] with an object store, and [load_from_minio] *)

(** The upload of a text: it returns, the object can be fetched under the
    bucket and name cut from the path, the bucket exists, and no other object
    is touched. *)
Lemma store_in_minio_text (text path : string) (c : Minio) :
  snd (store_in_minio (PStr text) (Some path) c) = Return tt /\
  get_object (path_bucket path) (path_rest path)
    (fst (store_in_minio (PStr text) (Some path) c)) = Return (Some text) /\
  bucket_exists (path_bucket path)
    (fst (store_in_minio (PStr text) (Some path) c)) = true /\
  (forall bucket name,
      bucket <> path_bucket path \/ name <> path_rest path ->
      get_object bucket name (fst (store_in_minio (PStr text) (Some path) c)) =
      get_object bucket name c).
Proof.
  unfold store_in_minio, bucket_exists, dict_contains, make_bucket, put_object.
  fold (path_bucket path). fold (path_rest path).
  destruct (dict_get (path_bucket path) c) as [objects|] eqn:Hb; simpl.
  - rewrite Hb. simpl. unfold get_object.
    rewrite !dict_get_set_eq. repeat split.
    intros bucket name Hne.
    destruct (String.eqb_spec bucket (path_bucket path)) as [->|Hbn].
    + rewrite dict_get_set_eq, Hb.
      destruct Hne as [Hne|Hne]; [contradiction|].
      now rewrite dict_get_set_neq.
    + now rewrite dict_get_set_neq.
  - rewrite dict_get_set_eq. simpl. unfold get_object.
    rewrite !dict_get_set_eq. simpl. rewrite String.eqb_refl. repeat split.
    intros bucket name Hne.
    destruct (String.eqb_spec bucket (path_bucket path)) as [->|Hbn].
    + rewrite dict_get_set_eq, Hb.
      destruct Hne as [Hne|Hne]; [contradiction|].
      simpl. apply String.eqb_neq in Hne. now rewrite Hne.
    + now rewrite !dict_get_set_neq.
Qed.

Section ObjectStore.
Context {impl : ModelImpl}.

Lemma store_result_minio (id : string) (raw : pyval) (w : World) (r : ModelRun.t)
    (cfg : OperaAdapterConfig) (path text : string) (c : Minio) :
  minio_client (self w) = Some c ->
  dict_get id (registry w) = Some r ->
  ModelRun.config r = Some cfg ->
  output_esdl_file_path cfg = Some path ->
  process_results raw = PStr text ->
  text <> "" ->
  store_result id raw w =
    ({| self :=
          {| model_run_dict :=
               dict_set id (ModelRun.set_result (Some [("path", PStr path)]) r)
                 (registry w);
             minio_client := Some (fst (store_in_minio (PStr text) (Some path) c)) |};
        disk := disk w |},
     Return (ModelRunInfo.mk id SUCCEEDED None None)).
Proof.
  unfold registry. intros Hminio Hget Hcfg Hpath Hres Htext.
  unfold store_result. rewrite Hget, Hres. simpl truthy.
  apply String.eqb_neq in Htext. rewrite Htext. simpl negb. cbv iota.
  rewrite Hcfg, Hminio, Hpath.
  destruct (store_in_minio_text text path c) as [Hret _].
  destruct (store_in_minio (PStr text) (Some path) c) as [c' out].
  simpl in Hret. subst out. reflexivity.
Qed.

(** X3: with an object store, what a returning [store_result] uploads for a
    non-empty text artifact is what [load_from_minio] reads back under the
    configured output path. *)
Theorem store_result_then_load (id : string) (raw : pyval) (w : World)
    (r : ModelRun.t) (cfg : OperaAdapterConfig) (path text : string) (c : Minio)
    (info : ModelRunInfo.t) :
  minio_client (self w) = Some c ->
  dict_get id (registry w) = Some r ->
  ModelRun.config r = Some cfg ->
  output_esdl_file_path cfg = Some path ->
  process_results raw = PStr text ->
  text <> "" ->
  snd (store_result id raw w) = Return info ->
  load_from_minio path (self (fst (store_result id raw w))) = Return (Some text).
Proof.
  intros Hminio Hget Hcfg Hpath Hres Htext _.
  rewrite (store_result_minio id raw w r cfg path text c
             Hminio Hget Hcfg Hpath Hres Htext).
  unfold load_from_minio. cbn [fst self minio_client].
  destruct (store_in_minio_text text path c) as [_ [Hload _]].
  now rewrite Hload.
Qed.

End ObjectStore.

Lemma store_result_then_load_witness :
  load_from_minio "results/run1/out.esdl"
    (self (fst (@store_result identity_processor "r1" (PStr "<xml/>")
                  (minio_world "results/run1/out.esdl"))))
  = Return (Some "<xml/>").
Proof.
  refine (@store_result_then_load identity_processor "r1" (PStr "<xml/>")
            (minio_world "results/run1/out.esdl")
            (ModelRun.mk RUNNING (Some (out_cfg "results/run1/out.esdl")) None)
            (out_cfg "results/run1/out.esdl") "results/run1/out.esdl" "<xml/>"
            [("results", [("old.esdl", "<old/>")])]
            (ModelRunInfo.mk "r1" SUCCEEDED None None)
            eq_refl eq_refl eq_refl eq_refl eq_refl _ eq_refl).
  discriminate.
Defined.


(** ** [store_result] on the local disk *)

Lemma substring_all (s : string) : substring 0 (String.length s) s = s.
Proof. induction s as [|c s IH]; simpl; [reflexivity | now rewrite IH]. Qed.

(** The two slices of [store_result] on a path that begins with [file://]. *)
Lemma file_path_slices (filename : string) :
  substring 0 7 ("file://" ++ filename) = "file://" /\
  substring 7 (String.length ("file://" ++ filename) - 7) ("file://" ++ filename)
    = filename.
Proof.
  split; [simpl; destruct filename; reflexivity|].
  simpl. rewrite Nat.sub_0_r. apply substring_all.
Qed.

Section LocalDisk.
Context {impl : ModelImpl}.

(** X5: without an object store, with output path [file://] followed by a
    file name that can be opened, and a non-empty text artifact,
    [store_result] writes exactly that text to exactly that file, leaves every
    other file alone, records [{"path": path}] as the result and returns
    SUCCEEDED. *)
Theorem store_result_writes_file (id : string) (raw : pyval) (w : World)
    (r : ModelRun.t) (cfg : OperaAdapterConfig) (filename text : string) :
  minio_client (self w) = None ->
  dict_get id (registry w) = Some r ->
  ModelRun.config r = Some cfg ->
  output_esdl_file_path cfg = Some ("file://" ++ filename) ->
  process_results raw = PStr text ->
  text <> "" ->
  can_open filename (disk w) = true ->
  store_result id raw w =
    ({| self :=
          with_dict
            (dict_set id
               (ModelRun.set_result (Some [("path", PStr ("file://" ++ filename))]) r)
               (registry w))
            (self w);
        disk := write_file filename text (disk w) |},
     Return (ModelRunInfo.mk id SUCCEEDED None None)) /\
  dict_get filename (files (disk (fst (store_result id raw w)))) = Some text /\
  (forall other, other <> filename ->
     dict_get other (files (disk (fst (store_result id raw w)))) =
     dict_get other (files (disk w))).
Proof.
  unfold registry. intros Hminio Hget Hcfg Hpath Hres Htext Hopen.
  assert (E : store_result id raw w =
    ({| self :=
          with_dict
            (dict_set id
               (ModelRun.set_result (Some [("path", PStr ("file://" ++ filename))]) r)
               (model_run_dict (self w)))
            (self w);
        disk := write_file filename text (disk w) |},
     Return (ModelRunInfo.mk id SUCCEEDED None None))).
  { unfold store_result. rewrite Hget, Hres. simpl truthy.
    apply String.eqb_neq in Htext. rewrite Htext. simpl negb. cbv iota.
    rewrite Hcfg, Hminio, Hpath. unfold store_on_disk.
    destruct (file_path_slices filename) as [-> ->].
    rewrite String.eqb_refl, Hopen. reflexivity. }
  rewrite E. cbn [fst disk files write_file].
  split; [reflexivity|]. split.
  - apply dict_get_set_eq.
  - intros other Hne. now apply dict_get_set_neq.
Qed.

(** X6: without an object store, when the processor returns a truthy value
    that is not a text, [store_result] on a [file://] path that can be opened
    raises [TypeError] after the file has been opened for writing: the file is
    left empty, whatever it held, and the registry is unchanged. *)
Theorem store_result_truncates_file (id : string) (raw : pyval) (w : World)
    (r : ModelRun.t) (cfg : OperaAdapterConfig) (filename : string) :
  minio_client (self w) = None ->
  dict_get id (registry w) = Some r ->
  ModelRun.config r = Some cfg ->
  output_esdl_file_path cfg = Some ("file://" ++ filename) ->
  truthy (process_results raw) = true ->
  (forall text, process_results raw <> PStr text) ->
  can_open filename (disk w) = true ->
  store_result id raw w =
    ({| self := self w; disk := write_file filename "" (disk w) |}, Raise TypeError) /\
  dict_get filename (files (disk (fst (store_result id raw w)))) = Some "".
Proof.
  unfold registry. intros Hminio Hget Hcfg Hpath Htruthy Hnot Hopen.
  assert (E : store_result id raw w =
    ({| self := self w; disk := write_file filename "" (disk w) |}, Raise TypeError)).
  { unfold store_result. rewrite Hget, Htruthy, Hcfg, Hminio, Hpath.
    unfold store_on_disk.
    destruct (file_path_slices filename) as [-> ->].
    rewrite String.eqb_refl, Hopen.
    destruct (process_results raw) as [| | |text]; try reflexivity.
    now specialize (Hnot text). }
  rewrite E. split; [reflexivity|].
  cbn [fst disk files write_file]. apply dict_get_set_eq.
Qed.

(** X7: [store_result] on a record that was never initialised (its config is
    [None]) raises [AttributeError] as soon as the processor returns a truthy
    value, and changes nothing. *)
Theorem store_result_without_config (id : string) (raw : pyval) (w : World)
    (r : ModelRun.t) :
  dict_get id (registry w) = Some r ->
  ModelRun.config r = None ->
  truthy (process_results raw) = true ->
  store_result id raw w = (w, Raise AttributeError).
Proof.
  unfold registry. intros Hget Hcfg Htruthy.
  unfold store_result. now rewrite Hget, Htruthy, Hcfg.
Qed.

(** X8: when the config has no output path ([output_esdl_file_path] is
    [None]) and the processor returns a truthy value, [store_result] raises
    [TypeError] or [AttributeError], with or without an object store, and
    leaves the registry, the object store and the disk as they were. *)
Theorem store_result_without_output_path (id : string) (raw : pyval) (w : World)
    (r : ModelRun.t) (cfg : OperaAdapterConfig) :
  dict_get id (registry w) = Some r ->
  ModelRun.config r = Some cfg ->
  output_esdl_file_path cfg = None ->
  truthy (process_results raw) = true ->
  fst (store_result id raw w) = w /\
  (snd (store_result id raw w) = Raise TypeError \/
   snd (store_result id raw w) = Raise AttributeError).
Proof.
  unfold registry. intros Hget Hcfg Hpath Htruthy.
  unfold store_result. rewrite Hget, Htruthy, Hcfg, Hpath.
  destruct w as [[d [c|]] k]; simpl in *.
  - destruct (process_results raw); simpl; auto.
  - auto.
Qed.

(** X9: a call of [store_result] that raises has changed no record; and it
    can raise only on a record that is in the registry and a truthy value from
    the processor. *)
Theorem store_result_raise_keeps_registry (id : string) (raw : pyval) (w : World)
    (e : exn) :
  snd (store_result id raw w) = Raise e ->
  registry (fst (store_result id raw w)) = registry w /\
  dict_contains id (registry w) = true /\
  truthy (process_results raw) = true.
Proof.
  intros Hraise.
  destruct (dict_get id (registry w)) as [r|] eqn:Hget.
  - destruct (truthy (process_results raw)) eqn:Htruthy.
    + destruct (store_result_present id raw w r Hget) as [[e' [_ H]]|[res [H _]]].
      * split; [exact H|]. split; [|reflexivity].
        unfold dict_contains. now rewrite Hget.
      * rewrite H in Hraise. discriminate Hraise.
    + unfold registry in Hget. unfold store_result in Hraise.
      rewrite Hget, Htruthy in Hraise. discriminate Hraise.
  - rewrite (store_result_unknown id raw w Hget) in Hraise. discriminate Hraise.
Qed.

(** X10: after a call of [store_result] that returns, [results] reports a
    result fixed by that call alone, whatever result the record held before:
    [{"path": output path}] when the processor returned a truthy value,
    [{"result": res}] with the processed value otherwise; and [results]
    changes nothing, so every later read gives the same. *)
Theorem store_result_then_results (id : string) (raw : pyval) (w : World)
    (r : ModelRun.t) (info : ModelRunInfo.t) :
  dict_get id (registry w) = Some r ->
  snd (store_result id raw w) = Return info ->
  ModelRunInfo.result (snd (results id (self (fst (store_result id raw w))))) =
    Some (if truthy (process_results raw)
          then [("path",
                 path_value (match ModelRun.config r with
                             | Some cfg => output_esdl_file_path cfg
                             | None => None
                             end))]
          else [("result", process_results raw)]) /\
  fst (results id (self (fst (store_result id raw w)))) =
    self (fst (store_result id raw w)).
Proof.
  unfold registry. intros Hget Hret.
  assert (Hread : forall m x,
             dict_get id (model_run_dict m) = Some x ->
             results id m = (m, ModelRunInfo.mk id (ModelRun.state x) (ModelRun.result x) None)).
  { intros m x Hx. unfold results. now rewrite Hx. }
  revert Hret. unfold store_result. rewrite Hget.
  destruct (truthy (process_results raw)).
  - destruct (ModelRun.config r) as [cfg|]; [|discriminate].
    destruct (minio_client (self w)) as [c|].
    + destruct (store_in_minio _ _ c) as [c' [[]|e]]; [|discriminate].
      intros _. cbn [fst self].
      erewrite Hread by (cbn [model_run_dict]; apply dict_get_set_eq).
      split; reflexivity.
    + destruct (store_on_disk _ _ (disk w)) as [k' [[]|e]]; [|discriminate].
      intros _. cbn [fst self].
      erewrite Hread by (unfold with_dict; cbn [model_run_dict]; apply dict_get_set_eq).
      split; reflexivity.
  - intros _. cbn [fst self].
    erewrite Hread by (unfold with_dict; cbn [model_run_dict]; apply dict_get_set_eq).
    split; reflexivity.
Qed.
End LocalDisk.

Lemma store_result_writes_file_witness :
  dict_get "/tmp/out.esdl"
    (files (disk (fst (@store_result identity_processor "r1" (PStr "<xml/>")
                         (running_world "file:///tmp/out.esdl")))))
  = Some "<xml/>".
Proof.
  refine (proj1 (proj2
    (@store_result_writes_file identity_processor "r1" (PStr "<xml/>")
       (running_world "file:///tmp/out.esdl")
       (ModelRun.mk RUNNING (Some (out_cfg "file:///tmp/out.esdl")) None)
       (out_cfg "file:///tmp/out.esdl") "/tmp/out.esdl" "<xml/>"
       eq_refl eq_refl eq_refl eq_refl eq_refl _ eq_refl))).
  discriminate.
Defined.

Lemma store_result_truncates_file_witness :
  @store_result counting_processor "r1" (PStr "<xml/>")
    (running_world "file:///tmp/out.esdl") =
    ({| self := self (running_world "file:///tmp/out.esdl");
        disk := {| files := [("/tmp/out.esdl", "")]; refused := [] |} |},
     Raise TypeError).
Proof.
  refine (proj1
    (@store_result_truncates_file counting_processor "r1" (PStr "<xml/>")
       (running_world "file:///tmp/out.esdl")
       (ModelRun.mk RUNNING (Some (out_cfg "file:///tmp/out.esdl")) None)
       (out_cfg "file:///tmp/out.esdl") "/tmp/out.esdl"
       eq_refl eq_refl eq_refl eq_refl eq_refl _ eq_refl)).
  intros text. discriminate.
Defined.

Lemma store_result_without_config_witness :
  @store_result identity_processor "r1" (PStr "<xml/>")
    (fst (@exec identity_processor (Request "r1") world0)) =
    (fst (@exec identity_processor (Request "r1") world0), Raise AttributeError).
Proof.
  exact (@store_result_without_config identity_processor "r1" (PStr "<xml/>")
           (fst (@exec identity_processor (Request "r1") world0))
           (ModelRun.mk ACCEPTED None None) eq_refl eq_refl eq_refl).
Defined.

Lemma store_result_without_output_path_witness :
  fst (@store_result identity_processor "r1" (PStr "<xml/>")
         (fst (@exec_all identity_processor
                 [Request "r1";
                  Initialize "r1" (Some (Build_OperaAdapterConfig None None None None))]
                 world0))) =
  fst (@exec_all identity_processor
         [Request "r1";
          Initialize "r1" (Some (Build_OperaAdapterConfig None None None None))]
         world0).
Proof.
  exact (proj1
    (@store_result_without_output_path identity_processor "r1" (PStr "<xml/>")
       (fst (@exec_all identity_processor
               [Request "r1";
                Initialize "r1" (Some (Build_OperaAdapterConfig None None None None))]
               world0))
       (ModelRun.mk READY (Some (Build_OperaAdapterConfig None None None None)) None)
       (Build_OperaAdapterConfig None None None None)
       eq_refl eq_refl eq_refl eq_refl)).
Defined.

Lemma store_result_raise_keeps_registry_witness :
  registry (fst (@store_result identity_processor "r1" (PStr "<xml/>")
                   (running_world "s3://bucket/out.esdl"))) =
  registry (running_world "s3://bucket/out.esdl").
Proof.
  exact (proj1
    (@store_result_raise_keeps_registry identity_processor "r1" (PStr "<xml/>")
       (running_world "s3://bucket/out.esdl")
       (IOError "Don't know how to write file s3://bucket/out.esdl") eq_refl)).
Defined.

Lemma store_result_then_results_witness :
  ModelRunInfo.result
    (snd (results "r1"
            (self (fst (@store_result identity_processor "r1" (PStr "<xml/>")
                          (running_world "file:///tmp/out.esdl")))))) =
  Some [("path", PStr "file:///tmp/out.esdl")].
Proof.
  exact (proj1
    (@store_result_then_results identity_processor "r1" (PStr "<xml/>")
       (running_world "file:///tmp/out.esdl")
       (ModelRun.mk RUNNING (Some (out_cfg "file:///tmp/out.esdl")) None)
       (ModelRunInfo.mk "r1" SUCCEEDED None None) eq_refl eq_refl)).
Defined.

(** ** The registry under all operations *)

Lemma dict_keys_set_present {V : Type} (k : string) (v v' : V) (d : dict V) :
  dict_get k d = Some v -> dict_keys (dict_set k v' d) = dict_keys d.
Proof.
  induction d as [|[k0 v0] rest IH]; simpl; [discriminate|].
  destruct (String.eqb k k0) eqn:E; simpl.
  - apply String.eqb_eq in E. now subst k0.
  - intros H. now rewrite (IH H).
Qed.

Lemma dict_set_set {V : Type} (k : string) (v v' : V) (d : dict V) :
  dict_set k v (dict_set k v' d) = dict_set k v d.
Proof.
  induction d as [|[k0 v0] rest IH]; simpl.
  - now rewrite String.eqb_refl.
  - destruct (String.eqb k k0) eqn:E; simpl.
    + now rewrite String.eqb_refl.
    + now rewrite E, IH.
Qed.

Lemma forall_dict_set {V : Type} (Q : V -> Prop) (k : string) (v : V) (d : dict V) :
  Forall (fun kv => Q (snd kv)) d -> Q v ->
  Forall (fun kv => Q (snd kv)) (dict_set k v d).
Proof.
  intros Hd Hv. induction Hd as [|[k0 v0] rest H0 Hrest IH]; simpl.
  - constructor; [assumption | constructor].
  - destruct (String.eqb k k0); constructor; assumption.
Qed.

Lemma forall_dict_del {V : Type} (Q : V -> Prop) (k : string) (d : dict V) :
  Forall (fun kv => Q (snd kv)) d -> Forall (fun kv => Q (snd kv)) (dict_del k d).
Proof.
  intros Hd. induction Hd as [|[k0 v0] rest H0 Hrest IH]; simpl.
  - constructor.
  - destruct (String.eqb k k0); [assumption | constructor; assumption].
Qed.

Lemma forall_dict_get {V : Type} (Q : V -> Prop) (k : string) (v : V) (d : dict V) :
  Forall (fun kv => Q (snd kv)) d -> dict_get k d = Some v -> Q v.
Proof.
  intros Hd. induction Hd as [|[k0 v0] rest H0 Hrest IH]; simpl; [discriminate|].
  destruct (String.eqb k k0); [|assumption].
  intros H. injection H as <-. assumption.
Qed.

Section Registry.
Context {impl : ModelImpl}.

(** X11: an operation touches one record only: the record of every identifier
    other than the one the operation is called with (or, for [request], the
    one it draws) is the same before and after, for all seven operations and
    whether the call returns or raises. *)
Theorem exec_frame (o : op) (w : World) (id' : string) :
  op_id o <> Some id' ->
  op_uuid o <> Some id' ->
  dict_get id' (registry (fst (exec o w))) = dict_get id' (registry w).
Proof.
  intros Hid Hu.
  destruct (exec_registry_change o w) as [|i r r' Hi _ _|u ->|i ->].
  - reflexivity.
  - apply dict_get_set_neq. intros ->. now apply Hid.
  - apply dict_get_set_neq. intros ->. now apply Hu.
  - apply dict_get_del_neq. intros ->. now apply Hid.
Qed.

(** X12: only [request] adds an identifier to the registry and only [remove]
    takes one out: every other operation leaves the identifiers of the
    registry, and their order, as they were. *)
Theorem exec_keeps_keys (o : op) (w : World) :
  op_uuid o = None ->
  (forall i, o <> Remove i) ->
  dict_keys (registry (fst (exec o w))) = dict_keys (registry w).
Proof.
  intros Hu Hrm.
  destruct (exec_registry_change o w) as [|i r r' _ Hget _|u ->|i ->].
  - reflexivity.
  - now apply dict_keys_set_present with (v := r).
  - discriminate Hu.
  - now specialize (Hrm i).
Qed.

Lemma exec_keeps_managed (o : op) (w : World) :
  Forall (fun kv => managed_record (snd kv) = true) (registry w) ->
  Forall (fun kv => managed_record (snd kv) = true) (registry (fst (exec o w))).
Proof.
  intros Hall.
  destruct o as [u|i c|i|i|i raw|i|i]; [|cbn [exec]..].
  - rewrite exec_request. unfold registry at 1. simpl.
    now apply forall_dict_set with (Q := fun r => managed_record r = true).
  - unfold on_model, initialize. fold (registry w).
    destruct (dict_get i (registry w)) as [r|]; simpl; [|assumption].
    now apply forall_dict_set with (Q := fun r => managed_record r = true).
  - unfold on_model, run. fold (registry w).
    destruct (dict_get i (registry w)) as [r|] eqn:Hget; simpl; [|assumption].
    destruct (ModelState_eqb (ModelRun.state r) READY) eqn:Hst; simpl; [|assumption].
    now apply forall_dict_set with (Q := fun r => managed_record r = true).
  - unfold on_model, status. fold (registry w).
    destruct (dict_get i (registry w)) as [r|]; simpl; [|assumption].
    now apply forall_dict_set with (Q := fun r => managed_record r = true).
  - destruct (dict_get i (registry w)) as [r|] eqn:Hget.
    + destruct (store_result_present i raw w r Hget) as [[e [_ H]]|[res [_ H]]];
        rewrite H; [assumption|].
      apply forall_dict_set with (Q := fun r => managed_record r = true);
        [assumption|].
      exact (forall_dict_get (fun r => managed_record r = true) i r _ Hall Hget).
    + now rewrite (store_result_unknown i raw w Hget).
  - unfold on_model, results. fold (registry w).
    destruct (dict_get i (registry w)); simpl; assumption.
  - unfold on_model. fold (registry w).
    destruct (dict_contains i (registry w)) eqn:Hin.
    + rewrite (remove_present i _ Hin). simpl.
      now apply forall_dict_del with (Q := fun r => managed_record r = true).
    + unfold remove. fold (registry w). rewrite Hin. simpl. assumption.
Qed.

Lemma exec_all_keeps_managed (ops : list op) :
  forall w,
    Forall (fun kv => managed_record (snd kv) = true) (registry w) ->
    Forall (fun kv => managed_record (snd kv) = true)
      (registry (fst (exec_all ops w))).
Proof.
  induction ops as [|o rest IH]; intros w Hall; simpl; [assumption|].
  pose proof (exec_keeps_managed o w Hall) as H1.
  destruct (exec o w) as [w1 out]. simpl in H1.
  specialize (IH w1 H1).
  destruct (exec_all rest w1) as [w2 outs]. assumption.
Qed.

(** X13: whatever calls are made on a new [Model], every record of the
    registry is in one of the states ACCEPTED, READY, RUNNING and SUCCEEDED
    (never UNKNOWN, PENDING, QUEUED or ERROR), and a record that is still
    ACCEPTED has no config. *)
Theorem reachable_records_managed (ops : list op) (minio : option Minio) (d : Disk)
    (id : string) (r : ModelRun.t) :
  dict_get id (registry (fst (exec_all ops {| self := init minio; disk := d |})))
    = Some r ->
  In (ModelRun.state r) [ACCEPTED; READY; RUNNING; SUCCEEDED] /\
  (ModelRun.state r = ACCEPTED -> ModelRun.config r = None).
Proof.
  intros Hget.
  assert (Hm : managed_record r = true).
  { refine (forall_dict_get (fun r => managed_record r = true) id r _ _ Hget).
    apply exec_all_keeps_managed. constructor. }
  unfold managed_record in Hm. apply andb_true_iff in Hm. destruct Hm as [Hs Hc].
  split.
  - destruct (ModelRun.state r); simpl in *; try discriminate; tauto.
  - intros Ha. rewrite Ha in Hc. destruct (ModelRun.config r); [discriminate|reflexivity].
Qed.
End Registry.

Lemma exec_frame_witness :
  dict_get "b"
    (registry (fst (@exec identity_processor (Status "a")
                      {| self := waiting; disk := disk world0 |}))) =
  Some (ModelRun.mk PENDING None None).
Proof.
  refine (@exec_frame identity_processor (Status "a")
            {| self := waiting; disk := disk world0 |} "b" _ _);
    discriminate.
Defined.

Lemma exec_keeps_keys_witness :
  dict_keys
    (registry (fst (@exec identity_processor (Initialize "b" None)
                      {| self := waiting; disk := disk world0 |}))) =
  ["a"; "b"; "c"].
Proof.
  refine (@exec_keeps_keys identity_processor (Initialize "b" None)
            {| self := waiting; disk := disk world0 |} eq_refl _).
  intros i. discriminate.
Defined.

Lemma reachable_records_managed_witness :
  In SUCCEEDED [ACCEPTED; READY; RUNNING; SUCCEEDED].
Proof.
  exact (proj1
    (@reachable_records_managed identity_processor
       [Request "r1"; Status "r1"; Request "r2"] None (disk world0) "r1"
       (ModelRun.mk SUCCEEDED None None) eq_refl)).
Defined.

(** ** How the lifecycle operations compose *)

Lemma initialize_present (id : string) (c : option OperaAdapterConfig) (m : Model)
    (r : ModelRun.t) :
  dict_get id (model_run_dict m) = Some r ->
  initialize id c m =
    (with_dict (dict_set id (ModelRun.mk READY c (ModelRun.result r)) (model_run_dict m)) m,
     ModelRunInfo.mk id READY None None).
Proof. intros Hget. unfold initialize. now rewrite Hget. Qed.

Lemma status_present (id : string) (m : Model) (r : ModelRun.t) :
  dict_get id (model_run_dict m) = Some r ->
  status id m =
    (with_dict
       (dict_set id (ModelRun.mk SUCCEEDED (ModelRun.config r) (ModelRun.result r))
          (model_run_dict m)) m,
     ModelRunInfo.mk id SUCCEEDED None None).
Proof. intros Hget. unfold status. now rewrite Hget. Qed.

(** X14: [initialize] makes a record READY from any state, so a record that
    is already RUNNING or SUCCEEDED can be initialised and run again:
    [initialize] followed by [run] always answers RUNNING and leaves the
    record RUNNING with the new config and the result it had. *)
Theorem initialize_then_run (id : string) (c : option OperaAdapterConfig) (m : Model)
    (r : ModelRun.t) :
  dict_get id (model_run_dict m) = Some r ->
  run id (fst (initialize id c m)) =
    (with_dict
       (dict_set id (ModelRun.mk RUNNING c (ModelRun.result r)) (model_run_dict m)) m,
     ModelRunInfo.mk id RUNNING None None).
Proof.
  intros Hget. rewrite (initialize_present id c m r Hget). cbn [fst].
  rewrite (run_ready id _ (ModelRun.mk READY c (ModelRun.result r))).
  - unfold with_dict. cbn [model_run_dict minio_client].
    now rewrite dict_set_set.
  - unfold with_dict. cbn [model_run_dict]. apply dict_get_set_eq.
  - reflexivity.
Qed.

(** X15: [status] moves a record to SUCCEEDED from any state, keeping its
    config and result; polling again changes nothing more; and [run] is then
    rejected, with state SUCCEEDED in the answer. *)
Theorem status_succeeds (id : string) (m : Model) (r : ModelRun.t) :
  dict_get id (model_run_dict m) = Some r ->
  dict_get id (model_run_dict (fst (status id m))) =
    Some (ModelRun.mk SUCCEEDED (ModelRun.config r) (ModelRun.result r)) /\
  snd (status id m) = ModelRunInfo.mk id SUCCEEDED None None /\
  status id (fst (status id m)) = (fst (status id m), snd (status id m)) /\
  run id (fst (status id m)) =
    (fst (status id m), ModelRunInfo.mk id SUCCEEDED None (Some not_ready_reason)).
Proof.
  intros Hget. rewrite (status_present id m r Hget). cbn [fst snd].
  assert (Hafter : dict_get id
            (model_run_dict
               (with_dict
                  (dict_set id
                     (ModelRun.mk SUCCEEDED (ModelRun.config r) (ModelRun.result r))
                     (model_run_dict m)) m)) =
            Some (ModelRun.mk SUCCEEDED (ModelRun.config r) (ModelRun.result r)))
    by (unfold with_dict; cbn [model_run_dict]; apply dict_get_set_eq).
  split; [exact Hafter|]. split; [reflexivity|]. split.
  - rewrite (status_present id _ _ Hafter).
    unfold with_dict. cbn [model_run_dict minio_client ModelRun.config ModelRun.result].
    now rewrite dict_set_set.
  - rewrite (run_not_ready id _ _ Hafter); [reflexivity | discriminate].
Qed.

Section Composition.
Context {impl : ModelImpl}.

(** X16: on any world and for any drawn identifier and config, the calls
    request, initialize, run, status, results answer ACCEPTED, READY, RUNNING,
    SUCCEEDED and SUCCEEDED with no result and no reason, and leave one record
    for the identifier: SUCCEEDED, with the config given and no result. *)
Theorem lifecycle_in_order (u : string) (c : option OperaAdapterConfig) (w : World) :
  snd (exec_all [Request u; Initialize u c; Run u; Status u; Results u] w) =
    [Return (ModelRunInfo.mk u ACCEPTED None None);
     Return (ModelRunInfo.mk u READY None None);
     Return (ModelRunInfo.mk u RUNNING None None);
     Return (ModelRunInfo.mk u SUCCEEDED None None);
     Return (ModelRunInfo.mk u SUCCEEDED None None)] /\
  registry (fst (exec_all [Request u; Initialize u c; Run u; Status u; Results u] w)) =
    dict_set u (ModelRun.mk SUCCEEDED c None) (registry w).
Proof.
  unfold registry, exec_all, exec, on_model, request, initialize, run, status, results,
    with_dict.
  cbn [self disk model_run_dict minio_client fst snd].
  repeat (rewrite ?dict_get_set_eq, ?dict_set_set;
          cbn [self disk model_run_dict minio_client fst snd negb ModelState_eqb
               ModelRun.state ModelRun.config ModelRun.result
               ModelRun.set_state ModelRun.set_config ModelRun.set_result]).
  split; reflexivity.
Qed.

(** X17: a run cannot be started before it is initialised: [run] right after
    [request] is rejected, answers ACCEPTED with the reason that the model is
    not in READY state, and leaves the new record ACCEPTED. *)
Theorem run_before_initialize (u : string) (w : World) :
  snd (exec_all [Request u; Run u] w) =
    [Return (ModelRunInfo.mk u ACCEPTED None None);
     Return (ModelRunInfo.mk u ACCEPTED None (Some not_ready_reason))] /\
  registry (fst (exec_all [Request u; Run u] w)) =
    dict_set u (ModelRun.mk ACCEPTED None None) (registry w).
Proof.
  unfold registry, exec_all, exec, on_model, request, run, with_dict.
  cbn [self disk model_run_dict minio_client fst snd].
  repeat (rewrite ?dict_get_set_eq;
          cbn [self disk model_run_dict minio_client fst snd negb ModelState_eqb
               ModelRun.state]).
  split; reflexivity.
Qed.

(** X18: what an answer can carry.  A returned [ModelRunInfo] always bears the
    identifier the operation was called with (for [request], the one drawn);
    only [results] ever fills its result; and it has a reason only when its
    state is ERROR for an identifier that is not in the registry, or when it
    is the rejection of a [run]. *)
Theorem answer_shape (o : op) (w : World) (info : ModelRunInfo.t) :
  snd (exec o w) = Return info ->
  (op_id o = Some (ModelRunInfo.model_run_id info) \/
   op_uuid o = Some (ModelRunInfo.model_run_id info)) /\
  (ModelRunInfo.result info <> None -> exists i, o = Results i) /\
  (ModelRunInfo.reason info <> None ->
     (ModelRunInfo.state info = ERROR /\
      dict_get (ModelRunInfo.model_run_id info) (registry w) = None) \/
     (exists i, o = Run i)).
Proof.
  intros Hret.
  destruct o as [u|i c|i|i|i raw|i|i].
  - rewrite exec_request in Hret. injection Hret as <-. simpl.
    split; [now right|]. split; intros H; now contradiction H.
  - simpl in Hret. unfold on_model, initialize in Hret. fold (registry w) in Hret.
    destruct (dict_get i (registry w)) as [r|] eqn:Hget;
      simpl in Hret; injection Hret as <-; simpl.
    + split; [now left|]. split; intros H; now contradiction H.
    + split; [now left|]. split; [intros H; now contradiction H|]. intros _. now left.
  - simpl. split; [|split].
    + simpl in Hret. unfold on_model, run in Hret.
      destruct (dict_get i (model_run_dict (self w))) as [r|];
        [destruct (negb _)|]; simpl in Hret; injection Hret as <-; now left.
    + simpl in Hret. unfold on_model, run in Hret.
      destruct (dict_get i (model_run_dict (self w))) as [r|];
        [destruct (negb _)|]; simpl in Hret; injection Hret as <-;
        intros H; now contradiction H.
    + intros _. right. now exists i.
  - simpl in Hret. unfold on_model, status in Hret. fold (registry w) in Hret.
    destruct (dict_get i (registry w)) as [r|] eqn:Hget;
      simpl in Hret; injection Hret as <-; simpl.
    + split; [now left|]. split; intros H; now contradiction H.
    + split; [now left|]. split; [intros H; now contradiction H|]. intros _. now left.
  - simpl in Hret.
    destruct (dict_get i (registry w)) as [r|] eqn:Hget.
    + destruct (store_result_present i raw w r Hget) as [[e [H _]]|[res [H _]]];
        rewrite H in Hret; [discriminate Hret|].
      injection Hret as <-. simpl.
      split; [now left|]. split; intros H0; now contradiction H0.
    + rewrite (store_result_unknown i raw w Hget) in Hret. injection Hret as <-. simpl.
      split; [now left|]. split; [intros H; now contradiction H|]. intros _. now left.
  - simpl. split; [|split].
    + simpl in Hret. unfold on_model, results in Hret.
      destruct (dict_get i (model_run_dict (self w))) as [r|];
        simpl in Hret; injection Hret as <-; now left.
    + intros _. now exists i.
    + simpl in Hret. unfold on_model, results in Hret. fold (registry w) in Hret.
      destruct (dict_get i (registry w)) as [r|] eqn:Hget;
        simpl in Hret; injection Hret as <-; simpl.
      * intros H; now contradiction H.
      * intros _. now left.
  - simpl in Hret. unfold on_model, remove in Hret. fold (registry w) in Hret.
    destruct (dict_contains i (registry w)) eqn:Hin;
      simpl in Hret; injection Hret as <-; simpl.
    + split; [now left|]. split; intros H; now contradiction H.
    + split; [now left|]. split; [intros H; now contradiction H|]. intros _.
      left. split; [reflexivity|]. now apply dict_contains_false.
Qed.
End Composition.

Lemma initialize_then_run_witness :
  snd (run "r1" (fst (initialize "r1" None (started "r1")))) =
  ModelRunInfo.mk "r1" RUNNING None None.
Proof.
  exact (f_equal snd
    (initialize_then_run "r1" None (started "r1")
       (ModelRun.mk RUNNING None None) eq_refl)).
Defined.

Lemma status_succeeds_witness :
  dict_get "b" (model_run_dict (fst (status "b" waiting))) =
  Some (ModelRun.mk SUCCEEDED None None).
Proof.
  exact (proj1 (status_succeeds "b" waiting (ModelRun.mk PENDING None None) eq_refl)).
Defined.

Lemma answer_shape_witness :
  op_id (Run "r1") = Some "r1" \/ op_uuid (Run "r1") = Some "r1".
Proof.
  exact (proj1
    (@answer_shape identity_processor (Run "r1") (running_world "file:///tmp/out.esdl")
       (ModelRunInfo.mk "r1" RUNNING None (Some not_ready_reason)) eq_refl)).
Defined.

Section ObjectStoreErrors.
Context {impl : ModelImpl}.

(** X19: with an object store, a truthy value from the processor that is not
    a text makes [store_result] raise [TypeError] before anything is looked up
    or uploaded: no bucket is created, no object written, no record changed. *)
Theorem store_result_minio_not_text (id : string) (raw : pyval) (w : World)
    (r : ModelRun.t) (cfg : OperaAdapterConfig) (c : Minio) :
  minio_client (self w) = Some c ->
  dict_get id (registry w) = Some r ->
  ModelRun.config r = Some cfg ->
  truthy (process_results raw) = true ->
  (forall text, process_results raw <> PStr text) ->
  store_result id raw w = (w, Raise TypeError).
Proof.
  unfold registry. intros Hminio Hget Hcfg Htruthy Hnot.
  unfold store_result. rewrite Hget, Htruthy, Hcfg, Hminio.
  destruct w as [[d mc] k]. simpl in *. subst mc.
  destruct (process_results raw) as [| | |text]; try reflexivity.
  now specialize (Hnot text).
Qed.
End ObjectStoreErrors.

Lemma store_result_minio_not_text_witness :
  @store_result counting_processor "r1" (PStr "<xml/>")
    (minio_world "results/run1/out.esdl") =
    (minio_world "results/run1/out.esdl", Raise TypeError).
Proof.
  refine (@store_result_minio_not_text counting_processor "r1" (PStr "<xml/>")
            (minio_world "results/run1/out.esdl")
            (ModelRun.mk RUNNING (Some (out_cfg "results/run1/out.esdl")) None)
            (out_cfg "results/run1/out.esdl")
            [("results", [("old.esdl", "<old/>")])]
            eq_refl eq_refl eq_refl eq_refl _).
  intros text. discriminate.
Defined.

(** ** [request] and repeated draws of [uuid4] *)

(** C6, as stated, fails: [request] does not check the identifier it draws.
    When [uuid4] hands out the same identifier twice, the two calls return
    the same identifier and the second call adds no entry: it overwrites
    the record of the first. *)
Lemma request_repeated_draw :
  @requested_ids identity_processor [Request "r1"; Request "r1"] world0
    = ["r1"; "r1"] /\
  ~ NoDup (@requested_ids identity_processor [Request "r1"; Request "r1"] world0) /\
  registry (fst (@exec_all identity_processor [Request "r1"; Request "r1"] world0))
    = [("r1", ModelRun.mk ACCEPTED None None)] /\
  registry (fst (@exec_all identity_processor [Request "r1"] world0))
    = [("r1", ModelRun.mk ACCEPTED None None)].
Proof.
  split; [reflexivity|]. split; [|split; reflexivity].
  intros H. vm_compute in H. inversion H as [|x l Hnotin _].
  apply Hnotin. now left.
Qed.

Section RequestIds.
Context {impl : ModelImpl}.

(** The identifiers returned by the calls of [request] are the identifiers
    drawn, in the order they were drawn, on any world. *)
Lemma requested_ids_drawn (ops : list op) :
  forall w, requested_ids ops w = drawn ops.
Proof.
  induction ops as [|o rest IH]; intros w; [reflexivity|].
  unfold requested_ids. simpl trace.
  destruct (exec o w) as [w1 out] eqn:E. simpl.
  fold (requested_ids rest w1). rewrite IH.
  unfold returned_id, drawn. simpl.
  destruct o; try reflexivity.
  rewrite exec_request in E. injection E as <- <-. reflexivity.
Qed.

(** C6 (amended): [request] always returns, with the identifier [uuid4] drew
    and state ACCEPTED, and leaves under that identifier a record with state
    ACCEPTED, config [None] and result [None], every other record being as
    it was.  It adds exactly one new entry when the drawn identifier is not
    in the registry; when it is, the record there is overwritten and no entry
    is added.  Over any sequence of calls the identifiers returned are
    exactly the identifiers drawn, so they are pairwise distinct exactly when
    the draws of [uuid4] are; and on a new [Model], when the draws are
    pairwise distinct, every call of [request] finds its identifier unused and
    adds exactly one entry, removals in between included. *)
Theorem request_returns_drawn_id (u : string) (w : World) (ops : list op) :
  snd (exec (Request u) w) = Return (ModelRunInfo.mk u ACCEPTED None None) /\
  dict_get u (registry (fst (exec (Request u) w))) =
    Some (ModelRun.mk ACCEPTED None None) /\
  (forall id', id' <> u ->
     dict_get id' (registry (fst (exec (Request u) w))) = dict_get id' (registry w)) /\
  (dict_get u (registry w) = None ->
     registry (fst (exec (Request u) w)) =
       (registry w ++ [(u, ModelRun.mk ACCEPTED None None)])%list) /\
  (dict_get u (registry w) <> None ->
     dict_keys (registry (fst (exec (Request u) w))) = dict_keys (registry w)) /\
  requested_ids ops w = drawn ops /\
  (NoDup (requested_ids ops w) <-> NoDup (drawn ops)) /\
  (forall minio d,
     NoDup (drawn ops) ->
     Forall request_adds_one (trace ops {| self := init minio; disk := d |})).
Proof.
  rewrite exec_request. cbn [fst snd]. unfold registry at 1 2 3 4.
  cbn [self model_run_dict with_dict].
  split; [reflexivity|].
  split; [apply dict_get_set_eq|].
  split; [intros id' Hne; now apply dict_get_set_neq|].
  split; [intros Habs; now apply dict_set_absent|].
  split.
  - intros Hin. destruct (dict_get u (registry w)) as [r|] eqn:Hget.
    + now apply dict_keys_set_present with (v := r).
    + now contradiction Hin.
  - split; [apply requested_ids_drawn|].
    split; [now rewrite requested_ids_drawn|].
    intros minio d Hnd.
    destruct (trace_requests ops {| self := init minio; disk := d |} Hnd)
      as [Hall _]; [reflexivity | assumption].
Qed.
End RequestIds.

Lemma request_returns_drawn_id_witness :
  Forall (@request_adds_one)
    (@trace identity_processor three_requests world0) /\
  dict_keys
    (registry (fst (@exec identity_processor (Request "r1")
                      (fst (@exec identity_processor (Request "r1") world0))))) =
  ["r1"].
Proof.
  split.
  - refine (proj2 (proj2 (proj2 (proj2 (proj2 (proj2 (proj2
      (@request_returns_drawn_id identity_processor "r1" world0 three_requests)))))))
      None {| files := []; refused := [] |} _).
    unfold three_requests, drawn. simpl.
    repeat constructor; simpl; intuition discriminate.
  - refine (proj1 (proj2 (proj2 (proj2 (proj2
      (@request_returns_drawn_id identity_processor "r1"
         (fst (@exec identity_processor (Request "r1") world0)) []))))) _).
    discriminate.
Defined.
